(** * ServerHub widget template (templates/python-advanced/widget.py)

    A shallow embedding of the widget renderer: the script scans [sys.argv]
    for the token [--extended], prints a sequence of directive lines to
    standard output inside one [try] block, and turns any [Exception] raised
    there into one error row.

    Effects are modelled with ExtLib's monads: standard output is state that
    survives an exception, exceptions are the [eitherT] layer above it. *)

From Stdlib Require Import String Ascii List ZArith Lia Bool Arith.
From Stdlib Require Import DecimalString.
From Stdlib Require DecimalZ DecimalPos.
From ExtLib Require Import Structures.Monad Structures.MonadState Structures.MonadExc.
From ExtLib Require Import Data.Monads.StateMonad Data.Monads.EitherMonad.
Import ListNotations.
Import MonadNotation.
Local Open Scope monad_scope.
Local Open Scope string_scope.
Local Open Scope Z_scope.

(** ** Python values and builtins used by the script *)

Module Py.

(** An instance of [Exception]; the handler only ever looks at [str(e)]. *)
Record exn : Type := Exception { str_e : string }.

(** [str(n)] for an [int]. *)
Definition str (n : Z) : string := NilZero.string_of_int (Z.to_int n).

(** [sep.join(l)]. *)
Definition join (sep : string) (l : list string) : string := String.concat sep l.

(** [x in l] for a list of strings: some element compares equal to [x]. *)
Fixpoint contains (x : string) (l : list string) : bool :=
  match l with
  | [] => false
  | y :: l' => if String.eqb y x then true else contains x l'
  end.

(** [sum(l)]. *)
Definition sum (l : list Z) : Z := fold_left Z.add l 0.

(** [len(l)]. *)
Definition len {A : Type} (l : list A) : Z := Z.of_nat (length l).

(** [a // b]: floor division, [ZeroDivisionError] on a zero divisor. *)
Definition floordiv (a b : Z) : exn + Z :=
  if b =? 0 then inl (Exception "integer division or modulo by zero")
  else inr (a / b).

(** [min(l)]: [ValueError] on the empty list. *)
Definition min (l : list Z) : exn + Z :=
  match l with
  | [] => inl (Exception "min() arg is an empty sequence")
  | x :: l' => inr (fold_left Z.min l' x)
  end.

(** [max(l)]: [ValueError] on the empty list. *)
Definition max (l : list Z) : exn + Z :=
  match l with
  | [] => inl (Exception "max() arg is an empty sequence")
  | x :: l' => inr (fold_left Z.max l' x)
  end.

(** [needle in hay] for two strings: substring test. *)
Fixpoint substring_of (needle hay : string) : bool :=
  if String.prefix needle hay then true
  else match hay with
       | EmptyString => false
       | String _ hay' => substring_of needle hay'
       end.

End Py.

(** ** The process: standard output, and the exceptions forced on it *)

(** What the run has done so far: the lines written to standard output, one
    entry per completed [print] call, and the number of [print] calls
    started. *)
Record world : Type := World { stdout : list string; calls : nat }.

Definition start : world := World [] 0.

(** The interpreter monad: an exception keeps the output written so far. *)
Definition run : Type -> Type := eitherT Py.exn (state world).

(** At most one exception is forced on a run from outside the program text:
    [Some (k, e)] makes the [print] call number [k] (counted from 0) raise
    [e] instead of writing its line. [None] is the undisturbed run. *)
Definition fault : Type := option (nat * Py.exn).

Definition strikes (f : fault) (n : nat) : option Py.exn :=
  match f with
  | Some (k, e) => if Nat.eqb n k then Some e else None
  | None => None
  end.

(** Lifting the outcome of an expression into the monad. *)
Definition eval {A : Type} (r : Py.exn + A) : run A :=
  match r with
  | inl e => raise e
  | inr a => ret a
  end.

(** [EXTENDED_MODE = "--extended" in sys.argv] *)
Definition EXTENDED_MODE (argv : list string) : bool :=
  Py.contains "--extended" argv.

(** ["ok" if current_value < 80 else "error"] *)
Definition status_of (current_value : Z) : string :=
  if current_value <? 80 then "ok" else "error".

(** The line the handler prints for a caught exception. *)
Definition error_row (e : Py.exn) : string :=
  "row: [status:error] Error: " ++ Py.str_e e.

(** The sample data of the template. *)
Definition current_value : Z := 42.
Definition history : list Z := [30; 35; 40; 42; 45; 50; 48; 42].

Section Widget.

Variable f : fault.

(** [print(s)]: one line on standard output, unless the call is the one
    the fault strikes. *)
Definition print (s : string) : run unit :=
  w <- get ;;
  match strikes f (calls w) with
  | Some e => put (World (stdout w) (S (calls w))) ;; raise e
  | None => put (World (stdout w ++ [s]) (S (calls w)))
  end.

(** The body of the [try] block, as a function of the mode and of the two
    locals [current_value] and [history]. In an f-string the doubled
    braces stand for single ones, so the placeholders are printed as
    [{WIDGET_TITLE}], [{REFRESH_INTERVAL}] and [{OUTPUT_FILE}]. *)
Definition render (extended : bool) (current_value : Z) (history : list Z)
  : run unit :=
  print "title: {WIDGET_TITLE}" ;;
  print "refresh: {REFRESH_INTERVAL}" ;;
  (if negb extended then
     let status := status_of current_value in
     print ("row: [status:" ++ status ++ "] Current: " ++ Py.str current_value) ;;
     print ("row: [sparkline:" ++ Py.join "," (map Py.str history) ++ "]") ;;
     avg <- eval (Py.floordiv (Py.sum history) (Py.len history)) ;;
     print ("row: Average: " ++ Py.str avg)
   else
     print "row: [bold]Current Status[/]" ;;
     let status := status_of current_value in
     print ("row: [status:" ++ status ++ "] Value: " ++ Py.str current_value) ;;
     print "row:" ;;
     print "row: [bold]History Graph[/]" ;;
     print ("row: [graph:" ++ Py.join "," (map Py.str history) ++ "]") ;;
     print "row:" ;;
     print "row: [bold]Statistics[/]" ;;
     print "[table:Metric|Value]" ;;
     avg <- eval (Py.floordiv (Py.sum history) (Py.len history)) ;;
     print ("[tablerow:Average|" ++ Py.str avg ++ "]") ;;
     lo <- eval (Py.min history) ;;
     print ("[tablerow:Minimum|" ++ Py.str lo ++ "]") ;;
     hi <- eval (Py.max history) ;;
     print ("[tablerow:Maximum|" ++ Py.str hi ++ "]") ;;
     print ("[tablerow:Samples|" ++ Py.str (Py.len history) ++ "]")) ;;
  print "action: Refresh:python3 {OUTPUT_FILE}".

(** [main()] with the sample data left as parameters. *)
Definition main_with (extended : bool) (current_value : Z) (history : list Z)
  : run unit :=
  catch (render extended current_value history)
        (fun e => print (error_row e)).

(** [main()] as shipped. *)
Definition main (argv : list string) : run unit :=
  main_with (EXTENDED_MODE argv) current_value history.

End Widget.

(** Running a computation from the start of the process: what was raised or
    returned, and the final world. *)
Definition exec {A : Type} (c : run A) : (Py.exn + A) * world :=
  runState (unEitherT c) start.

(** The lines on standard output after a run of the script. *)
Definition output (f : fault) (argv : list string) : list string :=
  stdout (snd (exec (main f argv))).

(** The exit status: 0 when [main()] returns, 1 when an exception leaves it. *)
Definition exit_status (f : fault) (argv : list string) : Z :=
  match fst (exec (main f argv)) with
  | inr _ => 0
  | inl _ => 1
  end.


(** ** The output protocol *)



(** The number of lines of an output that start with a given tag. *)
Definition count_tag (t : string) (out : list string) : nat :=
  length (filter (String.prefix t) out).

(** The two outputs of an undisturbed run, written out. *)
Definition compact_lines : list string :=
  [ "title: {WIDGET_TITLE}";
    "refresh: {REFRESH_INTERVAL}";
    "row: [status:ok] Current: 42";
    "row: [sparkline:30,35,40,42,45,50,48,42]";
    "row: Average: 41";
    "action: Refresh:python3 {OUTPUT_FILE}" ].

Definition extended_lines : list string :=
  [ "title: {WIDGET_TITLE}";
    "refresh: {REFRESH_INTERVAL}";
    "row: [bold]Current Status[/]";
    "row: [status:ok] Value: 42";
    "row:";
    "row: [bold]History Graph[/]";
    "row: [graph:30,35,40,42,45,50,48,42]";
    "row:";
    "row: [bold]Statistics[/]";
    "[table:Metric|Value]";
    "[tablerow:Average|41]";
    "[tablerow:Minimum|30]";
    "[tablerow:Maximum|50]";
    "[tablerow:Samples|8]";
    "action: Refresh:python3 {OUTPUT_FILE}" ].

Definition lines (extended : bool) : list string :=
  if extended then extended_lines else compact_lines.

(** ** The script on other data

    The template's two locals are meant to be replaced; the definitions
    below look at [main()] for any values of them. *)





(** How often a character occurs in a string. *)
Fixpoint count_char (c : ascii) (s : string) : nat :=
  match s with
  | EmptyString => 0%nat
  | String a s' => ((if Ascii.eqb a c then 1 else 0) + count_char c s')%nat
  end.

(** The characters [str] of an [int] is made of. *)
Definition numeric (c : ascii) : bool :=
  Ascii.eqb c "-" || (Nat.leb 48 (nat_of_ascii c) && Nat.leb (nat_of_ascii c) 57).

(** Whether every character of a string passes a test. *)
Fixpoint all_chars (p : ascii -> bool) (s : string) : bool :=
  match s with
  | EmptyString => true
  | String a s' => p a && all_chars p s'
  end.



(** ** How a run of the shipped script unfolds *)

Section Unfolding.

Variable extended : bool.

(** Without a fault the body prints every line and returns. *)
Lemma render_undisturbed :
  exec (render None extended current_value history)
  = (inr tt, World (lines extended) (length (lines extended))).
Proof. destruct extended; reflexivity. Qed.

(** A fault aimed past the last statement never fires. *)
Lemma render_late (k : nat) (e : Py.exn) :
  (length (lines extended) <= k)%nat ->
  exec (render (Some (k, e)) extended current_value history)
  = (inr tt, World (lines extended) (length (lines extended))).
Proof.
  intros H.
  destruct extended; cbn in H;
    do 15 (destruct k as [|k]; [first [exfalso; lia | reflexivity]|]);
    reflexivity.
Qed.

(** A fault at statement [k] stops the body there: the first [k] lines are
    out, line [k] is not, and [e] is in flight. *)
Lemma render_struck (k : nat) (e : Py.exn) :
  (k < length (lines extended))%nat ->
  exec (render (Some (k, e)) extended current_value history)
  = (inl e, World (firstn k (lines extended)) (S k)).
Proof.
  intros H.
  destruct extended; cbn in H;
    do 15 (destruct k as [|k]; [first [reflexivity | exfalso; lia]|]);
    exfalso; lia.
Qed.

End Unfolding.

(** [try: c except Exception as e: h e]: the handler resumes in the world the
    body left behind. *)
Lemma exec_catch {A : Type} (c : run A) (h : Py.exn -> run A) :
  exec (catch c h)
  = match exec c with
    | (inl e, w) => runState (unEitherT (h e)) w
    | (inr a, w) => (inr a, w)
    end.
Proof.
  unfold exec. cbn.
  destruct (runState (unEitherT c) start) as [[e | a] w]; reflexivity.
Qed.

Lemma print_at (f : fault) (s : string) (w : world) :
  runState (unEitherT (print f s)) w
  = match strikes f (calls w) with
    | Some e => (inl e, World (stdout w) (S (calls w)))
    | None => (inr tt, World (stdout w ++ [s]) (S (calls w)))
    end.
Proof. cbn. destruct (strikes f (calls w)); reflexivity. Qed.

(** The body of the shipped script either runs to its end or is stopped by
    the fault at one of its statements. *)
Lemma render_cases (f : fault) (extended : bool) :
  exec (render f extended current_value history)
  = (inr tt, World (lines extended) (length (lines extended)))
  \/ exists k e,
       f = Some (k, e) /\ (k < length (lines extended))%nat /\
       exec (render f extended current_value history)
       = (inl e, World (firstn k (lines extended)) (S k)).
Proof.
  destruct f as [[k e] |].
  - destruct (Nat.lt_ge_cases k (length (lines extended))) as [Hlt | Hge].
    + right. exists k, e. auto using render_struck.
    + left. now apply render_late.
  - left. apply render_undisturbed.
Qed.

(** The handler's own [print] is never the call the fault strikes: when the
    body raised, the fault is spent. *)
Lemma main_exec (f : fault) (argv : list string) :
  exec (main f argv)
  = match exec (render f (EXTENDED_MODE argv) current_value history) with
    | (inl e, w) => (inr tt, World (stdout w ++ [error_row e]) (S (calls w)))
    | (inr a, w) => (inr a, w)
    end.
Proof.
  unfold main, main_with. rewrite exec_catch.
  destruct (render_cases f (EXTENDED_MODE argv)) as [-> | (k & e & -> & _ & ->)].
  - reflexivity.
  - rewrite print_at. cbn [strikes calls stdout].
    replace (Nat.eqb (S k) k) with false; [reflexivity |].
    symmetry. apply Nat.eqb_neq. lia.
Qed.



Lemma output_returned (f : fault) (argv : list string) (w : world) :
  exec (render f (EXTENDED_MODE argv) current_value history) = (inr tt, w) ->
  output f argv = lines (EXTENDED_MODE argv).
Proof.
  intros H. unfold output. rewrite main_exec.
  destruct (render_cases f (EXTENDED_MODE argv))
    as [E | (k & e & _ & _ & E)]; rewrite E in *.
  - reflexivity.
  - discriminate.
Qed.

Lemma output_undisturbed (argv : list string) :
  output None argv = lines (EXTENDED_MODE argv).
Proof.
  apply output_returned with (w := World (lines (EXTENDED_MODE argv))
                                         (length (lines (EXTENDED_MODE argv)))).
  apply render_undisturbed.
Qed.


(** ** Membership of the flag *)

Lemma contains_In (x : string) (l : list string) :
  Py.contains x l = true <-> In x l.
Proof.
  induction l as [| y l IH]; cbn.
  - split; [discriminate | tauto].
  - destruct (String.eqb_spec y x) as [-> | Hne].
    + split; auto.
    + rewrite IH. split; [auto | intros [? | ?]; [contradiction | assumption]].
Qed.

Lemma contains_not_In (x : string) (l : list string) :
  Py.contains x l = false <-> ~ In x l.
Proof.
  rewrite <- contains_In. destruct (Py.contains x l); split; intros H;
    try reflexivity; try discriminate; try (intros ?; discriminate).
  exfalso. now apply H.
Qed.

(** ** Facts about the printed lines *)








Lemma lines_no_error_status (extended : bool) :
  forallb (fun l => negb (Py.substring_of "[status:error]" l)) (lines extended)
  = true.
Proof. destruct extended; reflexivity. Qed.


Lemma error_row_counts (e : Py.exn) :
  count_tag "row: [status:error]" [error_row e] = 1%nat /\
  count_tag "action:" [error_row e] = 0%nat.
Proof. split; reflexivity. Qed.

(** ** Exceptions that come from the data

    With an empty [history] the floor division raises [ZeroDivisionError]
    after the lines before it have been printed; the handler reports it. *)

(** On a positive divisor [//] is the floor of the quotient. *)
Lemma floordiv_spec (a b : Z) :
  0 < b ->
  exists q, Py.floordiv a b = inr q /\ b * q <= a < b * q + b.
Proof.
  intros Hb. exists (a / b). unfold Py.floordiv.
  destruct (Z.eqb_spec b 0) as [? | _]; [lia |].
  split; [reflexivity |].
  pose proof (Z.div_mod a b ltac:(lia)).
  pose proof (Z.mod_pos_bound a b Hb). lia.
Qed.


Lemma empty_history_extended (v : Z) :
  stdout (snd (exec (main_with None true v [])))
  = [ "title: {WIDGET_TITLE}";
      "refresh: {REFRESH_INTERVAL}";
      "row: [bold]Current Status[/]";
      "row: [status:" ++ status_of v ++ "] Value: " ++ Py.str v;
      "row:";
      "row: [bold]History Graph[/]";
      "row: [graph:]";
      "row:";
      "row: [bold]Statistics[/]";
      "[table:Metric|Value]";
      "row: [status:error] Error: integer division or modulo by zero" ].
Proof. reflexivity. Qed.

Lemma status_of_spec (v : Z) :
  (v < 80 -> status_of v = "ok") /\ (80 <= v -> status_of v = "error").
Proof.
  unfold status_of. destruct (Z.ltb_spec v 80); split; intros; (reflexivity || lia).
Qed.

(** ** The claims *)

(** C1. For the sample series [30,35,40,42,45,50,48,42] and the current value
    42 the status is [ok] (42 < 80), the sum is 332 over 8 samples, the
    average is [332 // 8 = 41], the minimum 30 and the maximum 50; an
    undisturbed run prints status [ok] and Average 41 in Compact mode, and
    status [ok], Average 41, Minimum 30, Maximum 50 and Samples 8 in the
    Extended statistics table. *)
Theorem sample_statistics_rendered :
  current_value < 80 /\
  status_of current_value = "ok" /\
  Py.sum history = 332 /\
  Py.len history = 8 /\
  Py.floordiv (Py.sum history) (Py.len history) = inr 41 /\
  Py.min history = inr 30 /\
  Py.max history = inr 50 /\
  forall argv : list string,
    let out := output None argv in
    if EXTENDED_MODE argv then
      In "row: [status:ok] Value: 42" out /\
      In "[tablerow:Average|41]" out /\
      In "[tablerow:Minimum|30]" out /\
      In "[tablerow:Maximum|50]" out /\
      In "[tablerow:Samples|8]" out
    else
      In "row: [status:ok] Current: 42" out /\
      In "row: Average: 41" out.
Proof.
  repeat (split; [reflexivity |]).
  intros argv out. subst out. rewrite output_undisturbed.
  destruct (EXTENDED_MODE argv); cbn; intuition.
Qed.



(** C3. An argument list without the token [--extended] gives, on an
    undisturbed run, exactly six lines in this order: the [title:] line, the
    [refresh:] line, three [row:] lines (the status-tagged current value,
    the sparkline of the comma-joined series, the floor average) and the
    [action:] line. *)
Theorem compact_output_exact (argv : list string) :
  ~ In "--extended" argv ->
  output None argv
  = [ "title: {WIDGET_TITLE}";
      "refresh: {REFRESH_INTERVAL}";
      "row: [status:" ++ status_of current_value ++ "] Current: "
        ++ Py.str current_value;
      "row: [sparkline:" ++ Py.join "," (map Py.str history) ++ "]";
      "row: Average: " ++ Py.str (Py.sum history / Py.len history);
      "action: Refresh:python3 {OUTPUT_FILE}" ] /\
  output None argv = compact_lines /\
  count_tag "row:" (output None argv) = 3%nat /\
  length (output None argv) = 6%nat.
Proof.
  intros H. apply contains_not_In in H.
  rewrite output_undisturbed. unfold EXTENDED_MODE. rewrite H.
  repeat split; reflexivity.
Qed.

Lemma compact_output_exact_witness :
  output None ["widget.py"; "--verbose"; "extended"]
  = [ "title: {WIDGET_TITLE}";
      "refresh: {REFRESH_INTERVAL}";
      "row: [status:ok] Current: 42";
      "row: [sparkline:30,35,40,42,45,50,48,42]";
      "row: Average: 41";
      "action: Refresh:python3 {OUTPUT_FILE}" ].
Proof.
  refine (proj1 (proj2 (compact_output_exact
                          ["widget.py"; "--verbose"; "extended"] _))).
  cbn. intros [H | [H | [H | []]]]; discriminate H.
Defined.

(** C4. An argument list with the token [--extended] gives, on an
    undisturbed run, the status rows and the graph block, then the
    statistics table: one [[table:Metric|Value]] line followed at once by
    the four [[tablerow:...]] lines Average, Minimum, Maximum, Samples, in
    that order, and nothing but the action line after them. *)
Theorem extended_statistics_table (argv : list string) :
  In "--extended" argv ->
  output None argv
  = ([ "title: {WIDGET_TITLE}";
       "refresh: {REFRESH_INTERVAL}";
       "row: [bold]Current Status[/]";
       "row: [status:ok] Value: 42";
       "row:";
       "row: [bold]History Graph[/]";
       "row: [graph:30,35,40,42,45,50,48,42]";
       "row:";
       "row: [bold]Statistics[/]" ]
     ++ [ "[table:Metric|Value]";
          "[tablerow:Average|41]";
          "[tablerow:Minimum|30]";
          "[tablerow:Maximum|50]";
          "[tablerow:Samples|8]" ]
     ++ [ "action: Refresh:python3 {OUTPUT_FILE}" ])%list /\
  count_tag "[table:" (output None argv) = 1%nat /\
  count_tag "[tablerow:" (output None argv) = 4%nat.
Proof.
  intros H. apply contains_In in H.
  rewrite output_undisturbed. unfold EXTENDED_MODE. rewrite H.
  repeat split; reflexivity.
Qed.

Lemma extended_statistics_table_witness :
  count_tag "[table:" (output None ["widget.py"; "-q"; "--extended"]) = 1%nat /\
  count_tag "[tablerow:" (output None ["widget.py"; "-q"; "--extended"]) = 4%nat.
Proof.
  refine (proj2 (extended_statistics_table ["widget.py"; "-q"; "--extended"] _)).
  cbn. auto.
Defined.

(** C5. The mode is decided by the presence of [--extended] in the argument
    list and by nothing else: the flag at any position, between any other
    arguments, gives Extended mode; a list without it gives Compact mode;
    an argument that is not the flag can be dropped without changing the
    mode; and the output of a run is the mode's output. *)
Theorem mode_is_flag_presence :
  (forall argv, EXTENDED_MODE argv = true <-> In "--extended" argv) /\
  (forall argv, EXTENDED_MODE argv = false <-> ~ In "--extended" argv) /\
  (forall pre post, EXTENDED_MODE (pre ++ "--extended" :: post) = true) /\
  (forall a pre post,
      a <> "--extended" ->
      EXTENDED_MODE (pre ++ a :: post) = EXTENDED_MODE (pre ++ post)) /\
  (forall argv,
      output None argv
      = if EXTENDED_MODE argv then extended_lines else compact_lines).
Proof.
  split; [exact (contains_In "--extended") |].
  split; [exact (contains_not_In "--extended") |].
  split; [| split].
  - intros pre post. apply contains_In, in_elt.
  - intros a pre post Ha. unfold EXTENDED_MODE.
    destruct (Py.contains "--extended" (pre ++ post)) eqn:E.
    + apply contains_In. apply contains_In in E.
      apply in_app_or in E. apply in_or_app. cbn. tauto.
    + apply contains_not_In. apply contains_not_In in E.
      intros Hin. apply E. apply in_app_or in Hin. apply in_or_app.
      destruct Hin as [? | [? | ?]]; [tauto | congruence | tauto].
  - exact output_undisturbed.
Qed.

Lemma mode_is_flag_presence_witness :
  EXTENDED_MODE ["widget.py"; "--json"; "--extended"; "x"] = true /\
  EXTENDED_MODE (["widget.py"] ++ "--json" :: ["x"])
  = EXTENDED_MODE (["widget.py"] ++ ["x"]).
Proof.
  destruct mode_is_flag_presence as (_ & _ & Hany & Hdrop & _).
  split.
  - exact (Hany ["widget.py"; "--json"] ["x"]).
  - apply Hdrop. discriminate.
Defined.


(** C7. The run is a function of its argument list, and of it only through
    the presence of [--extended]: two argument lists that agree on it give
    the same lines, the same exit status and the same final state. *)
Theorem output_depends_on_flag_only (f : fault) (argv1 argv2 : list string) :
  (In "--extended" argv1 <-> In "--extended" argv2) ->
  output f argv1 = output f argv2 /\
  exit_status f argv1 = exit_status f argv2 /\
  exec (main f argv1) = exec (main f argv2).
Proof.
  intros H.
  assert (E : EXTENDED_MODE argv1 = EXTENDED_MODE argv2).
  { unfold EXTENDED_MODE.
    destruct (Py.contains "--extended" argv2) eqn:E2.
    - apply contains_In, H, contains_In, E2.
    - apply contains_not_In. apply contains_not_In in E2. tauto. }
  unfold output, exit_status, main. rewrite E. repeat split.
Qed.

Lemma output_depends_on_flag_only_witness :
  output None ["widget.py"; "--extended"; "--color"]
  = output None ["--extended"; "widget.py"].
Proof.
  refine (proj1 (output_depends_on_flag_only
                   None ["widget.py"; "--extended"; "--color"]
                   ["--extended"; "widget.py"] _)).
  split; intros _; cbn; auto.
Defined.

(** C8. The flag is matched by equality with an element of the list: an
    argument that only contains [--extended] as a substring, such as
    [--extended=1] or [--extended-mode], does not select Extended mode, and
    the program name at the head of the list is tested like any other
    element. *)
Theorem flag_is_exact_membership :
  (forall prog args,
      EXTENDED_MODE (prog :: args) = true
      <-> prog = "--extended" \/ In "--extended" args) /\
  (forall argv,
      Forall (fun a => a <> "--extended") argv -> EXTENDED_MODE argv = false) /\
  Py.substring_of "--extended" "--extended=1" = true /\
  Py.substring_of "--extended" "--extended-mode" = true /\
  EXTENDED_MODE ["widget.py"; "--extended=1"] = false /\
  EXTENDED_MODE ["widget.py"; "--extended-mode"] = false /\
  output None ["widget.py"; "--extended=1"; "--extended-mode"] = compact_lines /\
  EXTENDED_MODE ["--extended"] = true /\
  output None ["--extended"] = extended_lines.
Proof.
  split; [| split].
  - intros prog args. unfold EXTENDED_MODE. rewrite contains_In. cbn.
    split; intros [H | H]; auto.
  - intros argv H. apply contains_not_In. intros Hin.
    rewrite Forall_forall in H. now apply (H _ Hin).
  - repeat split; reflexivity.
Qed.

Lemma flag_is_exact_membership_witness :
  EXTENDED_MODE ["widget.py"; "--extended=1"; "x--extended"; "--Extended"]
  = false.
Proof.
  apply (proj1 (proj2 flag_is_exact_membership)).
  repeat constructor; discriminate.
Defined.




(** C10. The sample value 42 is below the threshold 80, so its status is
    [ok] and not [error]; a run whose try block raises nothing prints the
    status row with [[status:ok]] and no line containing [[status:error]]. *)
Theorem status_ok_when_nothing_raised
    (f : fault) (argv : list string) (w : world) :
  exec (render f (EXTENDED_MODE argv) current_value history) = (inr tt, w) ->
  status_of current_value = "ok" /\
  status_of current_value <> "error" /\
  In (if EXTENDED_MODE argv
      then "row: [status:ok] Value: 42"
      else "row: [status:ok] Current: 42")
     (output f argv) /\
  forall l, In l (output f argv) -> Py.substring_of "[status:error]" l = false.
Proof.
  intros H. rewrite (output_returned _ _ _ H).
  split; [reflexivity |]. split; [discriminate |]. split.
  - destruct (EXTENDED_MODE argv); cbn; auto.
  - intros l Hl.
    apply (proj1 (forallb_forall _ _) (lines_no_error_status _)) in Hl.
    now apply negb_true_iff in Hl.
Qed.

Lemma status_ok_when_nothing_raised_witness :
  In "row: [status:ok] Value: 42" (output None ["widget.py"; "--extended"]) /\
  Py.substring_of "[status:error]" "row: [status:ok] Value: 42" = false.
Proof.
  pose proof (status_ok_when_nothing_raised
                None ["widget.py"; "--extended"]
                (World extended_lines 15) eq_refl) as (_ & _ & Hin & Hno).
  split; [exact Hin | exact (Hno _ Hin)].
Defined.

(** ** Beyond the shipped data *)













Lemma len_positive {A : Type} (h : list A) : h <> [] -> 0 < Py.len h.
Proof. destruct h; [congruence | intros _; unfold Py.len; cbn [length]; lia]. Qed.

(** X5. The average of a non-empty history is the quotient rounded towards
    minus infinity: [len * q <= sum < len * q + len], for negative sums
    too. *)
Theorem average_is_floor (h : list Z) :
  h <> [] ->
  exists q,
    Py.floordiv (Py.sum h) (Py.len h) = inr q /\
    Py.len h * q <= Py.sum h < Py.len h * q + Py.len h.
Proof. intros Hh. apply floordiv_spec. now apply len_positive. Qed.

Lemma average_is_floor_witness :
  exists q,
    Py.floordiv (Py.sum [-3; 0]) (Py.len [-3; 0]) = inr q /\
    Py.len [-3; 0] * q <= Py.sum [-3; 0] < Py.len [-3; 0] * q + Py.len [-3; 0].
Proof. apply (average_is_floor [-3; 0]). discriminate. Defined.

Lemma fold_min_spec (t : list Z) (x : Z) :
  In (fold_left Z.min t x) (x :: t) /\
  forall y, In y (x :: t) -> fold_left Z.min t x <= y.
Proof.
  revert x. induction t as [| a t IH]; intros x; cbn [fold_left].
  - split; [now left | intros y [<- | []]; lia].
  - destruct (IH (Z.min x a)) as [Hin Hle]. split.
    + destruct Hin as [E | Hin].
      * rewrite <- E. destruct (Z.min_spec x a) as [[_ ->] | [_ ->]];
          cbn; auto.
      * right. now right.
    + intros y [<- | [<- | Hy]].
      * specialize (Hle (Z.min x a) (or_introl eq_refl)). lia.
      * specialize (Hle (Z.min x a) (or_introl eq_refl)). lia.
      * apply Hle. now right.
Qed.

Lemma fold_max_spec (t : list Z) (x : Z) :
  In (fold_left Z.max t x) (x :: t) /\
  forall y, In y (x :: t) -> y <= fold_left Z.max t x.
Proof.
  revert x. induction t as [| a t IH]; intros x; cbn [fold_left].
  - split; [now left | intros y [<- | []]; lia].
  - destruct (IH (Z.max x a)) as [Hin Hle]. split.
    + destruct Hin as [E | Hin].
      * rewrite <- E. destruct (Z.max_spec x a) as [[_ ->] | [_ ->]];
          cbn; auto.
      * right. now right.
    + intros y [<- | [<- | Hy]].
      * specialize (Hle (Z.max x a) (or_introl eq_refl)). lia.
      * specialize (Hle (Z.max x a) (or_introl eq_refl)). lia.
      * apply Hle. now right.
Qed.

(** X6. On a non-empty history [min] and [max] succeed, each returns an
    element of the series, and every element lies between the two. *)
Theorem min_max_bound_the_series (h : list Z) :
  h <> [] ->
  exists lo hi,
    Py.min h = inr lo /\ Py.max h = inr hi /\
    In lo h /\ In hi h /\
    forall x, In x h -> lo <= x <= hi.
Proof.
  destruct h as [| x t]; [congruence | intros _].
  exists (fold_left Z.min t x), (fold_left Z.max t x).
  destruct (fold_min_spec t x) as [Hmin Hlo].
  destruct (fold_max_spec t x) as [Hmax Hhi].
  repeat split; auto.
Qed.

Lemma min_max_bound_the_series_witness :
  exists lo hi,
    Py.min [5; -2; 9] = inr lo /\ Py.max [5; -2; 9] = inr hi /\
    In lo [5; -2; 9] /\ In hi [5; -2; 9] /\
    forall x, In x [5; -2; 9] -> lo <= x <= hi.
Proof. apply (min_max_bound_the_series [5; -2; 9]). discriminate. Defined.

Lemma fold_add_shift (l : list Z) (a : Z) :
  fold_left Z.add l a = a + fold_left Z.add l 0.
Proof.
  revert a. induction l as [| x l IH]; intros a; cbn [fold_left]; [lia |].
  rewrite (IH (a + x)), (IH (0 + x)). lia.
Qed.

Lemma sum_cons (x : Z) (l : list Z) : Py.sum (x :: l) = x + Py.sum l.
Proof. unfold Py.sum. cbn [fold_left]. rewrite fold_add_shift. lia. Qed.

Lemma sum_between (lo hi : Z) (l : list Z) :
  (forall x, In x l -> lo <= x <= hi) ->
  Py.len l * lo <= Py.sum l <= Py.len l * hi.
Proof.
  induction l as [| x l IH]; intros H.
  - unfold Py.len, Py.sum. cbn. lia.
  - rewrite sum_cons.
    assert (Hx := H x (or_introl eq_refl)).
    assert (Hl := IH (fun y Hy => H y (or_intror Hy))).
    unfold Py.len in *. cbn [length]. rewrite Nat2Z.inj_succ. lia.
Qed.

(** X7. Whenever the three statistics are computed, the Average row lies
    between the Minimum row and the Maximum row. *)
Theorem average_between_min_and_max (h : list Z) (q lo hi : Z) :
  Py.floordiv (Py.sum h) (Py.len h) = inr q ->
  Py.min h = inr lo ->
  Py.max h = inr hi ->
  lo <= q <= hi.
Proof.
  intros Hq Hlo Hhi.
  destruct h as [| x t]; [discriminate Hlo |].
  injection Hlo as <-. injection Hhi as <-.
  pose proof (len_positive (x :: t) ltac:(discriminate)) as Hn.
  destruct (floordiv_spec (Py.sum (x :: t)) (Py.len (x :: t)) Hn)
    as (q' & E & Hfl).
  rewrite Hq in E. injection E as <-.
  destruct (fold_min_spec t x) as [_ Hlo].
  destruct (fold_max_spec t x) as [_ Hhi].
  pose proof (sum_between (fold_left Z.min t x) (fold_left Z.max t x) (x :: t)
                (fun y Hy => conj (Hlo y Hy) (Hhi y Hy))) as Hs.
  split; nia.
Qed.

Lemma average_between_min_and_max_witness :
  Py.floordiv (Py.sum [-7; 2; -2]) (Py.len [-7; 2; -2]) = inr (-3) /\
  Py.min [-7; 2; -2] = inr (-7) /\
  Py.max [-7; 2; -2] = inr 2 /\
  -7 <= -3 <= 2.
Proof.
  repeat (split; [reflexivity |]).
  apply (average_between_min_and_max [-7; 2; -2] (-3) (-7) 2); reflexivity.
Defined.

(** *** The protocol as an invariant of every statement *)

Section Protocol.

Variable f : fault.







End Protocol.





Lemma contains_app (x : string) (a b : list string) :
  Py.contains x (a ++ b) = Py.contains x a || Py.contains x b.
Proof.
  induction a as [| y a IH]; cbn; [reflexivity |].
  destruct (String.eqb y x); [reflexivity | exact IH].
Qed.

(** X11. The mode of a concatenated argument list is Extended exactly when
    one of the parts makes it so; the order of the arguments and their
    repetition play no part. *)
Theorem mode_of_concatenation (a b : list string) :
  EXTENDED_MODE (a ++ b) = EXTENDED_MODE a || EXTENDED_MODE b /\
  EXTENDED_MODE (b ++ a) = EXTENDED_MODE (a ++ b) /\
  EXTENDED_MODE (rev a) = EXTENDED_MODE a /\
  EXTENDED_MODE (a ++ a) = EXTENDED_MODE a.
Proof.
  unfold EXTENDED_MODE. rewrite !contains_app. repeat split.
  - apply orb_comm.
  - induction a as [| y a IH]; [reflexivity |].
    cbn [rev]. rewrite contains_app, IH. cbn.
    destruct (String.eqb y "--extended"), (Py.contains "--extended" a);
      reflexivity.
  - apply orb_diag.
Qed.

(** *** The text of the numbers *)

Lemma uint_text_numeric (d : Decimal.uint) :
  all_chars numeric (NilEmpty.string_of_uint d) = true.
Proof. induction d; cbn [NilEmpty.string_of_uint all_chars]; auto. Qed.

Lemma to_int_not_nil (n : Z) :
  Z.to_int n <> Decimal.Pos Decimal.Nil /\ Z.to_int n <> Decimal.Neg Decimal.Nil.
Proof.
  destruct n as [| p | p]; cbn; split; try discriminate;
    intros [= H]; exact (DecimalPos.Unsigned.to_uint_nonnil p H).
Qed.

Lemma str_numeric (n : Z) : all_chars numeric (Py.str n) = true.
Proof.
  unfold Py.str, NilZero.string_of_int.
  destruct (Z.to_int n) as [d | d]; [| cbn [all_chars]; cbn [numeric Ascii.eqb orb andb]];
    unfold NilZero.string_of_uint; destruct d; try reflexivity;
    apply (uint_text_numeric (_ _)) || (cbn; apply uint_text_numeric).
Qed.

Lemma str_nonempty (n : Z) : Py.str n <> "".
Proof.
  unfold Py.str, NilZero.string_of_int.
  destruct (Z.to_int n) as [d | d]; [| discriminate].
  unfold NilZero.string_of_uint. destruct d; discriminate.
Qed.

Lemma count_char_app (c : ascii) (s r : string) :
  count_char c (s ++ r) = (count_char c s + count_char c r)%nat.
Proof.
  induction s as [| a s IH]; cbn [append count_char]; [reflexivity |].
  rewrite IH. lia.
Qed.

Lemma absent_when_numeric (c : ascii) (s : string) :
  numeric c = false -> all_chars numeric s = true -> count_char c s = 0%nat.
Proof.
  intros Hc. induction s as [| a s IH]; cbn [all_chars count_char];
    [reflexivity |].
  intros H. apply andb_true_iff in H as [Ha Hs].
  destruct (Ascii.eqb_spec a c) as [-> | _]; [congruence |].
  now rewrite IH.
Qed.

(** X12. The text of a number is never empty and is made of digits and the
    minus sign only, so none of the protocol's delimiters (comma, pipe,
    closing bracket, colon, line feed) occurs inside a value. *)
Theorem number_text_has_no_delimiter (n : Z) :
  Py.str n <> "" /\
  all_chars numeric (Py.str n) = true /\
  count_char "," (Py.str n) = 0%nat /\
  count_char "|" (Py.str n) = 0%nat /\
  count_char "]" (Py.str n) = 0%nat /\
  count_char ":" (Py.str n) = 0%nat /\
  count_char "010" (Py.str n) = 0%nat.
Proof.
  split; [apply str_nonempty |]. split; [apply str_numeric |].
  repeat split; apply absent_when_numeric;
    (reflexivity || apply str_numeric).
Qed.

Lemma number_text_injective (a b : Z) : Py.str a = Py.str b -> a = b.
Proof.
  unfold Py.str. intros H.
  apply (f_equal NilZero.int_of_string) in H.
  destruct (to_int_not_nil a) as [Ha1 Ha2].
  destruct (to_int_not_nil b) as [Hb1 Hb2].
  rewrite !NilZero.isi in H by assumption.
  injection H as H. now apply DecimalZ.to_int_inj.
Qed.

(** X13. Different integers are printed differently, and the text reads
    back as the value it was printed from. *)
Theorem number_text_determines_value (a b : Z) :
  Py.str a = Py.str b ->
  a = b /\
  option_map Z.of_int (NilZero.int_of_string (Py.str a)) = Some b.
Proof.
  intros H. apply number_text_injective in H as <-. split; [reflexivity |].
  unfold Py.str. destruct (to_int_not_nil a) as [H1 H2].
  rewrite NilZero.isi by assumption. cbn [option_map].
  now rewrite DecimalZ.of_to.
Qed.

Lemma number_text_determines_value_witness :
  Py.str (40 + 2) = Py.str 42 /\ 40 + 2 = 42.
Proof.
  split; [reflexivity |].
  apply (proj1 (number_text_determines_value (40 + 2) 42 eq_refl)).
Defined.

(** The series as text: [','.join(map(str, history))]. *)
Lemma joined_cons2 (a b : Z) (t : list Z) :
  Py.join "," (map Py.str (a :: b :: t))
  = Py.str a ++ String "," (Py.join "," (map Py.str (b :: t))).
Proof. reflexivity. Qed.

Lemma joined_commas (a : Z) (t : list Z) :
  count_char "," (Py.join "," (map Py.str (a :: t))) = length t.
Proof.
  revert a. induction t as [| b t IH]; intros a.
  - cbn [map Py.join String.concat length].
    apply absent_when_numeric; [reflexivity | apply str_numeric].
  - rewrite joined_cons2, count_char_app. cbn [count_char].
    rewrite IH, (absent_when_numeric "," (Py.str a));
      [ | reflexivity | apply str_numeric ].
    cbn. reflexivity.
Qed.

Lemma joined_nonempty (a : Z) (t : list Z) :
  Py.join "," (map Py.str (a :: t)) <> "".
Proof.
  destruct t as [| b t].
  - apply str_nonempty.
  - rewrite joined_cons2. intros H.
    destruct (Py.str a) eqn:E; [now apply (str_nonempty a) | discriminate H].
Qed.

(** X14. The comma-joined series in the sparkline and graph rows has one
    comma less than the history has samples, so splitting it at the commas
    gives as many fields as [len(history)]. *)
Theorem joined_series_fields (h : list Z) :
  h <> [] ->
  S (count_char "," (Py.join "," (map Py.str h))) = length h /\
  Py.join "," (map Py.str h) <> "".
Proof.
  destruct h as [| a t]; [congruence | intros _]. split.
  - rewrite joined_commas. reflexivity.
  - apply joined_nonempty.
Qed.

Lemma joined_series_fields_witness :
  S (count_char "," (Py.join "," (map Py.str history))) = length history /\
  Py.join "," (map Py.str history) <> "".
Proof. apply (joined_series_fields history). discriminate. Defined.

(** Two texts without the separator that agree up to it agree entirely. *)
Lemma split_at_separator (c : ascii) (s1 s2 r1 r2 : string) :
  count_char c s1 = 0%nat -> count_char c s2 = 0%nat ->
  s1 ++ String c r1 = s2 ++ String c r2 ->
  s1 = s2 /\ r1 = r2.
Proof.
  revert s2. induction s1 as [| a s1 IH]; intros s2 H1 H2 E;
    destruct s2 as [| b s2]; cbn [append count_char] in *.
  - injection E as <-. auto.
  - injection E as <- _. rewrite Ascii.eqb_refl in H2. discriminate.
  - injection E as -> _. rewrite Ascii.eqb_refl in H1. discriminate.
  - injection E as <- E.
    destruct (Ascii.eqb a c); [discriminate |].
    destruct (IH s2 H1 H2 E) as [-> ->]. auto.
Qed.

Lemma separator_counted (c : ascii) (s r : string) :
  count_char c (s ++ String c r) <> 0%nat.
Proof.
  rewrite count_char_app. cbn [count_char]. rewrite Ascii.eqb_refl. lia.
Qed.

Lemma str_no_comma (n : Z) : count_char "," (Py.str n) = 0%nat.
Proof. apply absent_when_numeric; [reflexivity | apply str_numeric]. Qed.

(** X15. The comma-joined text determines the series: two histories that
    are rendered as the same text are the same list, in values, order and
    length. *)
Theorem joined_series_determines_history (h1 h2 : list Z) :
  Py.join "," (map Py.str h1) = Py.join "," (map Py.str h2) -> h1 = h2.
Proof.
  revert h2. induction h1 as [| a t1 IH]; intros h2 E.
  - destruct h2 as [| b t2]; [reflexivity |].
    exfalso. symmetry in E. revert E. apply joined_nonempty.
  - destruct h2 as [| b t2].
    + exfalso. revert E. apply joined_nonempty.
    + destruct t1 as [| a' t1], t2 as [| b' t2].
      * change (Py.str a = Py.str b) in E.
        now rewrite (number_text_injective a b E).
      * exfalso. rewrite joined_cons2 in E.
        change (Py.join "," (map Py.str [a])) with (Py.str a) in E.
        apply (separator_counted "," (Py.str b)
                 (Py.join "," (map Py.str (b' :: t2)))).
        rewrite <- E. apply str_no_comma.
      * exfalso. rewrite joined_cons2 in E.
        change (Py.join "," (map Py.str [b])) with (Py.str b) in E.
        apply (separator_counted "," (Py.str a)
                 (Py.join "," (map Py.str (a' :: t1)))).
        rewrite E. apply str_no_comma.
      * rewrite !joined_cons2 in E.
        apply split_at_separator in E as [Ea Et];
          try apply str_no_comma.
        rewrite (number_text_injective a b Ea).
        now rewrite (IH (b' :: t2) Et).
Qed.

Lemma joined_series_determines_history_witness :
  Py.join "," (map Py.str [3 * 10; 35]) = Py.join "," (map Py.str [30; 7 * 5]) /\
  [3 * 10; 35] = [30; 7 * 5].
Proof.
  split; [reflexivity |].
  apply (joined_series_determines_history [3 * 10; 35] [30; 7 * 5]).
  reflexivity.
Defined.

